(** * go-flutter: text-input plugin and JSON message codec

    A shallow embedding of [textinput.go] and [plugin/json-message-codec.go].

    Conventions.
    - Go [int], [glfw.Key], [glfw.Action] and [glfw.ModifierKey] are [Z];
      the code performs no arithmetic on them that could overflow, only
      comparisons and the bit operations [&] and [|].
    - Go [float64] is the primitive binary64 type [float]; [==] is
      [PrimFloat.eqb] (IEEE equality).
    - A Go [string] is a [string] (a sequence of bytes), a [[]byte] is a
      [list byte], a [rune] is a [Z].
    - A Go [error] is represented by its message.
    - Calls into collaborators (channels, clipboard, log) are recorded in an
      effect trace; what a collaborator answers is an input of the model. *)

From Stdlib Require Import ZArith List String Ascii Bool Lia Floats.
From Stdlib.Strings Require Import Byte.
From Stdlib Require Import DecimalString.
Import ListNotations.

Local Open Scope string_scope.
Local Open Scope list_scope.
Local Open Scope Z_scope.

(** ** Go values shared by both files *)

Definition GoError := string.
Definition rune := Z.
Definition RawMessage := list byte.

(** [errors.Wrap(err, msg)]: the message is prefixed to the cause. *)
Definition errors_Wrap (err : GoError) (msg : string) : GoError :=
  (msg ++ ": " ++ err)%string.

Set Warnings "-register-all".

(** Values that [json.Unmarshal] stores into an [interface{}]. *)
Inductive GoIface : Type :=
| INil
| IBool (b : bool)
| IFloat64 (f : float)
| IString (s : string)
| ISlice (l : list GoIface)
| IMap (m : list (string * GoIface)).

(** ** The conversion [[]rune(s)] of the Go runtime

    [decoderune] reads one UTF-8 sequence at the head of [s] and returns the
    rune and the number of bytes consumed; an ill-formed sequence yields
    U+FFFD and consumes one byte. *)

Definition runeError : rune := 0xFFFD.

Definition contb (b : Z) : bool := (0x80 <=? b) && (b <=? 0xBF).

Definition decoderune (s : list Z) : rune * nat :=
  match s with
  | [] => (runeError, 1%nat)
  | b0 :: t =>
    if b0 <? 0x80 then (b0, 1%nat)
    else if (0xC0 <=? b0) && (b0 <? 0xE0) then
      match t with
      | b1 :: _ =>
        let r := Z.lor (Z.shiftl (Z.land b0 0x1F) 6) (Z.land b1 0x3F) in
        if contb b1 && (0x7F <? r) then (r, 2%nat) else (runeError, 1%nat)
      | _ => (runeError, 1%nat)
      end
    else if (0xE0 <=? b0) && (b0 <? 0xF0) then
      match t with
      | b1 :: b2 :: _ =>
        let r := Z.lor (Z.lor (Z.shiftl (Z.land b0 0x0F) 12)
                              (Z.shiftl (Z.land b1 0x3F) 6))
                       (Z.land b2 0x3F) in
        if contb b1 && contb b2 && (0x7FF <? r)
           && negb ((0xD800 <=? r) && (r <=? 0xDFFF))
        then (r, 3%nat) else (runeError, 1%nat)
      | _ => (runeError, 1%nat)
      end
    else if (0xF0 <=? b0) && (b0 <? 0xF8) then
      match t with
      | b1 :: b2 :: b3 :: _ =>
        let r := Z.lor (Z.lor (Z.lor (Z.shiftl (Z.land b0 0x07) 18)
                                     (Z.shiftl (Z.land b1 0x3F) 12))
                              (Z.shiftl (Z.land b2 0x3F) 6))
                       (Z.land b3 0x3F) in
        if contb b1 && contb b2 && contb b3 && (0xFFFF <? r) && (r <=? 0x10FFFF)
        then (r, 4%nat) else (runeError, 1%nat)
      | _ => (runeError, 1%nat)
      end
    else (runeError, 1%nat)
  end.

(** Every step consumes at least one byte, so [length s] steps suffice. *)
Fixpoint runes_loop (fuel : nat) (s : list Z) : list rune :=
  match fuel, s with
  | O, _ | _, [] => []
  | S fuel', _ =>
    let '(r, n) := decoderune s in r :: runes_loop fuel' (skipn n s)
  end.

Definition bytes_of_string (s : string) : list Z :=
  map (fun c => Z.of_N (N_of_ascii c)) (list_ascii_of_string s).

Definition runes_of_string (s : string) : list rune :=
  let bs := bytes_of_string s in runes_loop (List.length bs) bs.

(** ** textinput.go: the editing state store *)

(** Android KeyEvent constants. *)
Definition androidMetaStateShift : Z := Z.shiftl 1 0.
Definition androidMetaStateAlt : Z := Z.shiftl 1 1.
Definition androidMetaStateCtrl : Z := Z.shiftl 1 12.
Definition androidMetaStateMeta : Z := Z.shiftl 1 16.

(** The shortcut table [KeyboardShortcuts]; the callback reads these four
    fields of it. *)
Record KeyboardShortcuts : Type := {
  SelectAll_key : Z;
  Copy_key : Z;
  Cut_key : Z;
  Paste_key : Z
}.

(** The plugin state.  The handles [messenger], [window], [textChannel] and
    [keyEventChannel] are not data of the model: their use shows up in the
    effect trace. *)
Record textinputPlugin : Type := {
  keyboardLayout : KeyboardShortcuts;
  modifierKey : Z;
  wordTravellerKey : Z;
  wordTravellerKeyShift : Z;
  clientID : float;
  word : list rune;
  selectionBase : Z;
  selectionExtent : Z
}.

Definition set_clientID (p : textinputPlugin) (c : float) : textinputPlugin :=
  {| keyboardLayout := keyboardLayout p;
     modifierKey := modifierKey p;
     wordTravellerKey := wordTravellerKey p;
     wordTravellerKeyShift := wordTravellerKeyShift p;
     clientID := c;
     word := word p;
     selectionBase := selectionBase p;
     selectionExtent := selectionExtent p |}.

Definition set_editing (p : textinputPlugin) (w : list rune) (b e : Z)
  : textinputPlugin :=
  {| keyboardLayout := keyboardLayout p;
     modifierKey := modifierKey p;
     wordTravellerKey := wordTravellerKey p;
     wordTravellerKeyShift := wordTravellerKeyShift p;
     clientID := clientID p;
     word := w;
     selectionBase := b;
     selectionExtent := e |}.

(** The fields of [argsEditingState] that [handleSetEditingState] reads. *)
Record argsEditingState : Type := {
  Text : string;
  SelectionBase : Z;
  SelectionExtent : Z
}.

(** How a method handler ends: it returns [(reply, err)] or it panics. *)
Inductive HandlerResult : Type :=
| Returned (reply : GoIface) (err : option GoError)
| Panicked (msg : string).

Section Handlers.

(** [json.Unmarshal] into a [[]interface{}] and into an [argsEditingState].
    The decoder belongs to the Go library, and the declaration of
    [argsEditingState] (its field tags) is outside [textinput.go]; both
    are parameters. *)
Variable Unmarshal_args : RawMessage -> GoError + list GoIface.
Variable Unmarshal_editingState : RawMessage -> GoError + argsEditingState.

Definition handleSetClient (p : textinputPlugin) (arguments : RawMessage)
  : textinputPlugin * HandlerResult :=
  match Unmarshal_args arguments with
  | inl err =>
    (p, Returned INil
          (Some (errors_Wrap err
                   "failed to decode json arguments for handleSetClient")))
  | inr args =>
    match args with
    | [] => (p, Panicked "index out of range")
    | IFloat64 id :: _ => (set_clientID p id, Returned INil None)
    | _ :: _ => (p, Panicked "interface conversion: not float64")
    end
  end.

Definition handleClearClient (p : textinputPlugin) (arguments : RawMessage)
  : textinputPlugin * HandlerResult :=
  (set_clientID p 0%float, Returned INil None).

Definition handleSetEditingState (p : textinputPlugin) (arguments : RawMessage)
  : textinputPlugin * HandlerResult :=
  if PrimFloat.eqb (clientID p) 0%float then
    (p, Returned INil
          (Some "cannot set editing state when no client is selected"))
  else
    match Unmarshal_editingState arguments with
    | inl err =>
      (p, Returned INil
            (Some (errors_Wrap err
                     "failed to decode json arguments for handleSetEditingState")))
    | inr editingState =>
      (set_editing p (runes_of_string (Text editingState))
                   (SelectionBase editingState)
                   (SelectionExtent editingState),
       Returned INil None)
    end.

End Handlers.

(** The selection invariant of the data model. *)
Definition selection_in_range (p : textinputPlugin) : Prop :=
  0 <= selectionBase p <= Z.of_nat (List.length (word p)) /\
  0 <= selectionExtent p <= Z.of_nat (List.length (word p)).

(** ** textinput.go: the key profile *)

(** Constants of GLFW 3.2. *)
Definition ModShift : Z := 0x0001.
Definition ModControl : Z := 0x0002.
Definition ModAlt : Z := 0x0004.
Definition ModSuper : Z := 0x0008.

Definition Release : Z := 0.
Definition Press : Z := 1.
Definition Repeat : Z := 2.

Definition KeyEscape : Z := 256.
Definition KeyEnter : Z := 257.
Definition KeyBackspace : Z := 259.
Definition KeyDelete : Z := 261.
Definition KeyRight : Z := 262.
Definition KeyLeft : Z := 263.
Definition KeyHome : Z := 268.
Definition KeyEnd : Z := 269.

Definition set_profile (p : textinputPlugin) (m w ws : Z) : textinputPlugin :=
  {| keyboardLayout := keyboardLayout p;
     modifierKey := m;
     wordTravellerKey := w;
     wordTravellerKeyShift := ws;
     clientID := clientID p;
     word := word p;
     selectionBase := selectionBase p;
     selectionExtent := selectionExtent p |}.

(** [InitPlugin]; [goos] is the value of [runtime.GOOS]. *)
Definition InitPlugin (goos : string) (p : textinputPlugin)
  : textinputPlugin * option GoError :=
  if String.eqb goos "darwin" then
    (set_profile p ModSuper ModAlt (Z.lor ModAlt ModShift), None)
  else
    (set_profile p ModControl ModControl (Z.lor ModControl ModShift), None).

(** The four booleans at the head of [glfwKeyCallback]. *)
Record ModFlags : Type := {
  modsIsModfifier : bool;
  modsIsShift : bool;
  modsIsWordModifierShift : bool;
  modsIsWordModifier : bool
}.

Definition noFlags : ModFlags :=
  {| modsIsModfifier := false; modsIsShift := false;
     modsIsWordModifierShift := false; modsIsWordModifier := false |}.

(** The tagless [switch] on [mods]: the first case that holds is taken. *)
Definition classifyMods (p : textinputPlugin) (mods : Z) : ModFlags :=
  if mods =? wordTravellerKeyShift p then
    {| modsIsModfifier := false; modsIsShift := false;
       modsIsWordModifierShift := true; modsIsWordModifier := false |}
  else if mods =? wordTravellerKey p then
    {| modsIsModfifier := false; modsIsShift := false;
       modsIsWordModifierShift := false; modsIsWordModifier := true |}
  else if mods =? modifierKey p then
    {| modsIsModfifier := true; modsIsShift := false;
       modsIsWordModifierShift := false; modsIsWordModifier := false |}
  else if mods =? ModShift then
    {| modsIsModfifier := false; modsIsShift := true;
       modsIsWordModifierShift := false; modsIsWordModifier := false |}
  else noFlags.

(** The modifier classes the specification names, and the class a value of
    the four booleans stands for (none when several are set). *)
Inductive ModifierClass : Type :=
| ClassNone
| ClassShift
| ClassPrimaryModifier
| ClassWordTravel
| ClassWordTravelExtend.

Definition classOf (f : ModFlags) : option ModifierClass :=
  match modsIsModfifier f, modsIsShift f,
        modsIsWordModifierShift f, modsIsWordModifier f with
  | false, false, false, false => Some ClassNone
  | false, true, false, false => Some ClassShift
  | true, false, false, false => Some ClassPrimaryModifier
  | false, false, false, true => Some ClassWordTravel
  | false, false, true, false => Some ClassWordTravelExtend
  | _, _, _, _ => None
  end.

(** ** textinput.go: the key callback *)

Record KeyEvent : Type := {
  KeyCode : Z;
  Keymap : string;
  Type_ : string;
  MetaState : Z
}.

Record MethodCall : Type := {
  method : string;
  arguments : GoIface
}.

Inductive PrintArg : Type :=
| ArgError (err : GoError)
| ArgAction (action : Z).

(** What the callback does to its collaborators, in program order. *)
Inductive Effect : Type :=
| NavigationInvoke (c : MethodCall)
| TextInvoke (c : MethodCall)
| Printf (format : string) (arg : PrintArg)
| SetClipboardString (s : string)
| KeyEventSend (event : KeyEvent).

(** What the collaborators answer during one callback: the error of the
    [popRoute] invocation and the result of [window.GetClipboardString()]. *)
Record Host : Type := {
  popRoute_err : option GoError;
  GetClipboardString : string * option GoError
}.

Definition Editor : Type := textinputPlugin -> textinputPlugin * list MethodCall.

(** Modelled from the spec: the editing methods of [textinputPlugin] that
    [glfwKeyCallback] calls and that are defined outside [textinput.go].
    The specification (4.4, 4.5) has them mutate the editing state and
    announce it to the engine by calls on the method channel.  Nothing more
    is fixed here: each one is an arbitrary function from the plugin state
    to the new state and the calls it makes on the text channel; the two
    queries only read the state. *)
Record TextModel : Type := {
  addChar : list rune -> Editor;
  performAction : string -> Editor;
  MoveCursorHome : bool -> bool -> bool -> bool -> Editor;
  MoveCursorEnd : bool -> bool -> bool -> bool -> Editor;
  MoveCursorLeft : bool -> bool -> bool -> bool -> Editor;
  MoveCursorRight : bool -> bool -> bool -> bool -> Editor;
  Delete : bool -> bool -> bool -> bool -> Editor;
  Backspace : bool -> bool -> bool -> bool -> Editor;
  SelectAll : Editor;
  isSelected : textinputPlugin -> bool;
  GetSelectedText : textinputPlugin -> Z * Z * string;
  RemoveSelectedText : Editor
}.

(** Control flow of the callback body: a statement either falls through to
    the next one ([Next]) or executes [return] ([Done]); both carry the
    state and the effects so far. *)
Inductive Flow : Type :=
| Next (p : textinputPlugin) (t : list Effect)
| Done (p : textinputPlugin) (t : list Effect).

Definition Proc : Type := textinputPlugin -> Flow.

Definition skip : Proc := fun p => Next p [].
Definition ret : Proc := fun p => Done p [].
Definition emit (e : Effect) : Proc := fun p => Next p [e].

Definition edit (ed : Editor) : Proc :=
  fun p => let '(p', t) := ed p in Next p' (map TextInvoke t).

Definition seq (a b : Proc) : Proc :=
  fun p =>
    match a p with
    | Done p1 t1 => Done p1 t1
    | Next p1 t1 =>
      match b p1 with
      | Done p2 t2 => Done p2 (t1 ++ t2)
      | Next p2 t2 => Next p2 (t1 ++ t2)
      end
    end.

Notation "a ;; b" := (seq a b) (at level 61, right associativity).

Definition run (a : Proc) (p : textinputPlugin) : textinputPlugin * list Effect :=
  match a p with
  | Next p' t | Done p' t => (p', t)
  end.

Definition withFlags (f : bool -> bool -> bool -> bool -> Editor) (fl : ModFlags)
  : Proc :=
  edit (f (modsIsModfifier fl) (modsIsShift fl)
          (modsIsWordModifierShift fl) (modsIsWordModifier fl)).

Definition nl : string := String "010"%char EmptyString.

(** Int returns val1 if condition, otherwise 0 *)
Definition conditionalInt (condition : bool) (val1 : Z) : Z :=
  if condition then val1 else 0.

(** The test [mods&m != 0]. *)
Definition modHeld (mods m : Z) : bool := negb (Z.land mods m =? 0).

(** The [metaState] field of the event literal. *)
Definition metaState (mods : Z) : Z :=
  Z.lor (Z.lor (Z.lor
    (conditionalInt (modHeld mods ModShift) androidMetaStateShift)
    (conditionalInt (modHeld mods ModAlt) androidMetaStateAlt))
    (conditionalInt (modHeld mods ModControl) androidMetaStateCtrl))
    (conditionalInt (modHeld mods ModSuper) androidMetaStateMeta).

Definition popRoute : MethodCall := {| method := "popRoute"; arguments := INil |}.

Section KeyCallback.

Variable M : TextModel.
Variable host : Host.

(** The [switch key] of the press-or-repeat block. *)
Definition keySwitch (key mods : Z) (fl : ModFlags) : Proc :=
  fun p =>
    let layout := keyboardLayout p in
    if key =? KeyEnter then
      (if mods =? modifierKey p then edit (performAction M "done")
       else edit (addChar M [10]) ;; edit (performAction M "newline")) p
    else if key =? KeyHome then withFlags (MoveCursorHome M) fl p
    else if key =? KeyEnd then withFlags (MoveCursorEnd M) fl p
    else if key =? KeyLeft then withFlags (MoveCursorLeft M) fl p
    else if key =? KeyRight then withFlags (MoveCursorRight M) fl p
    else if key =? KeyDelete then withFlags (Delete M) fl p
    else if key =? KeyBackspace then withFlags (Backspace M) fl p
    else if key =? SelectAll_key layout then
      (if mods =? modifierKey p then edit (SelectAll M) else skip) p
    else if key =? Copy_key layout then
      (if (mods =? modifierKey p) && isSelected M p then
         let '(_, _, selectedContent) := GetSelectedText M p in
         emit (SetClipboardString selectedContent)
       else skip) p
    else if key =? Cut_key layout then
      (if (mods =? modifierKey p) && isSelected M p then
         let '(_, _, selectedContent) := GetSelectedText M p in
         emit (SetClipboardString selectedContent) ;;
         edit (RemoveSelectedText M)
       else skip) p
    else if key =? Paste_key layout then
      (if mods =? modifierKey p then
         let '(clpString, err) := GetClipboardString host in
         match err with
         | Some e =>
           emit (Printf ("go-flutter: unable to get the clipboard content: %v" ++ nl)
                        (ArgError e)) ;;
           ret
         | None => edit (addChar M (runes_of_string clpString))
         end
       else skip) p
    else skip p.

(** The part of the callback after the comment [// key events]. *)
Definition sendKeyEvent (key action mods : Z) : Proc :=
  let send typeKey :=
    emit (KeyEventSend {| KeyCode := key; Keymap := "android";
                          Type_ := typeKey; MetaState := metaState mods |}) in
  if action =? Release then send "keyup"
  else if action =? Press then send "keydown"
  else
    emit (Printf ("go-flutter: failed to send key event, action: %v" ++ nl)
                 (ArgAction action)) ;;
    ret.

Definition glfwKeyCallback_body (key scancode action mods : Z) : Proc :=
  fun p =>
    let fl := classifyMods p mods in
    ((if (key =? KeyEscape) && (action =? Press) then
        emit (NavigationInvoke popRoute) ;;
        match popRoute_err host with
        | Some err =>
          emit (Printf ("go-flutter: failed to pop route after escape key press: %v" ++ nl)
                       (ArgError err))
        | None => skip
        end ;;
        ret
      else skip) ;;
     (if (action =? Repeat) || (action =? Press) then
        (fun p => if PrimFloat.eqb (clientID p) 0%float then ret p else skip p) ;;
        keySwitch key mods fl
      else skip) ;;
     sendKeyEvent key action mods) p.

Definition glfwKeyCallback (p : textinputPlugin) (key scancode action mods : Z)
  : textinputPlugin * list Effect :=
  run (glfwKeyCallback_body key scancode action mods) p.

End KeyCallback.

(** The key events among the effects of a trace, in order. *)
Fixpoint keyEventsOf (t : list Effect) : list KeyEvent :=
  match t with
  | [] => []
  | KeyEventSend e :: t' => e :: keyEventsOf t'
  | _ :: t' => keyEventsOf t'
  end.

(** ** plugin/json-message-codec.go *)

(** Message values: the [interface{}] values built from [nil], [bool],
    [int], [[]byte] and [[]interface{}].  On these [json.Marshal] has no
    error case and needs no string escaping.  A nil slice and an empty slice
    are different values, as in Go. *)
Inductive GoValue : Type :=
| VNil
| VBool (b : bool)
| VInt (n : Z)
| VBytesNil
| VBytes (b : list byte)
| VSliceNil
| VSlice (l : list GoValue).

Definition bs (s : string) : list byte := list_byte_of_string s.

Definition quote : byte := x22.

(** [base64.StdEncoding]: three bytes give four digits; a last group of one
    or two bytes is padded with [=]. *)
Definition encodeStd : list byte :=
  bs "ABCDEFGHIJKLMNOPQRSTUVWXYZabcdefghijklmnopqrstuvwxyz0123456789+/".

Definition digit64 (v : N) (shift : N) : byte :=
  nth (N.to_nat (N.land (N.shiftr v shift) 0x3F)) encodeStd "="%byte.

Fixpoint base64_Encode (src : list byte) : list byte :=
  match src with
  | [] => []
  | [a] =>
    let v := N.shiftl (Byte.to_N a) 16 in
    [digit64 v 18; digit64 v 12; "="%byte; "="%byte]
  | [a; b] =>
    let v := N.lor (N.shiftl (Byte.to_N a) 16) (N.shiftl (Byte.to_N b) 8) in
    [digit64 v 18; digit64 v 12; digit64 v 6; "="%byte]
  | a :: b :: c :: rest =>
    let v := N.lor (N.lor (N.shiftl (Byte.to_N a) 16) (N.shiftl (Byte.to_N b) 8))
                   (Byte.to_N c) in
    digit64 v 18 :: digit64 v 12 :: digit64 v 6 :: digit64 v 0
      :: base64_Encode rest
  end.

(** [json.Marshal] on message values. *)
Fixpoint json_Marshal (v : GoValue) : list byte :=
  match v with
  | VNil => bs "null"
  | VBool true => bs "true"
  | VBool false => bs "false"
  | VInt n => bs (NilZero.string_of_int (Z.to_int n))
  | VBytesNil => bs "null"
  | VBytes b => quote :: base64_Encode b ++ [quote]
  | VSliceNil => bs "null"
  | VSlice l =>
    "["%byte ::
    (fix elems (l : list GoValue) : list byte :=
       match l with
       | [] => []
       | x :: rest =>
         json_Marshal x ++
         match rest with
         | [] => []
         | _ :: _ => ","%byte :: elems rest
         end
       end) l ++ ["]"%byte]
  end.

(** A [[]byte] argument: [None] is the nil slice. *)
Definition bytesValue (b : option (list byte)) : GoValue :=
  match b with
  | None => VBytesNil
  | Some l => VBytes l
  end.

(** EncodeMessage encodes a json message to a slice of bytes. *)
Definition EncodeMessage (message : GoValue) : option (list byte) * option GoError :=
  (Some (json_Marshal message), None).

(** DecodeMessage decodes a slice of bytes to a json message. *)
Definition DecodeMessage (binaryMessage : option (list byte))
  : GoValue * option GoError :=
  (VBytes (json_Marshal (VSlice [bytesValue binaryMessage])), None).

(** ** Concrete calls

    Values on which the definitions above are evaluated. *)

(** [&textinputPlugin{}] with a shortcut table for a QWERTY layout
    (A, C, X, V). *)
Definition qwerty : KeyboardShortcuts :=
  {| SelectAll_key := 65; Copy_key := 67; Cut_key := 88; Paste_key := 86 |}.

Definition defaultTextinputPlugin : textinputPlugin :=
  {| keyboardLayout := qwerty;
     modifierKey := 0;
     wordTravellerKey := 0;
     wordTravellerKeyShift := 0;
     clientID := 0%float;
     word := [];
     selectionBase := 0;
     selectionExtent := 0 |}.

Definition q : string := String "034"%char EmptyString.

(** The payload [[7,{}]] of a [TextInput.setClient] call. *)
Definition setClient_7 : RawMessage := bs "[7,{}]".

(** The payload [{"text":"x","selectionBase":0,"selectionExtent":5}] of a
    [TextInput.setEditingState] call. *)
Definition setEditingState_x_0_5 : RawMessage :=
  bs ("{" ++ q ++ "text" ++ q ++ ":" ++ q ++ "x" ++ q ++ ","
          ++ q ++ "selectionBase" ++ q ++ ":0,"
          ++ q ++ "selectionExtent" ++ q ++ ":5}").

(** The payload [{"text":"abc","selectionBase":0,"selectionExtent":3}]. *)
Definition setEditingState_abc_0_3 : RawMessage :=
  bs ("{" ++ q ++ "text" ++ q ++ ":" ++ q ++ "abc" ++ q ++ ","
          ++ q ++ "selectionBase" ++ q ++ ":0,"
          ++ q ++ "selectionExtent" ++ q ++ ":3}").

Definition bytes_eqb (a b : list byte) : bool :=
  String.eqb (string_of_list_byte a) (string_of_list_byte b).

(** A decoder given by its graph on finitely many payloads; any other
    payload is rejected. *)
Fixpoint Unmarshal_table {A : Type} (tbl : list (RawMessage * A))
  (raw : RawMessage) : GoError + A :=
  match tbl with
  | [] => inl "unexpected end of JSON input"
  | (k, a) :: tbl' => if bytes_eqb k raw then inr a else Unmarshal_table tbl' raw
  end.

(** What [json.Unmarshal] yields on the payloads above. *)
Definition decode_args : RawMessage -> GoError + list GoIface :=
  Unmarshal_table [(setClient_7, [IFloat64 7%float; IMap []])].

Definition decode_editingState : RawMessage -> GoError + argsEditingState :=
  Unmarshal_table
    [(setEditingState_x_0_5,
      {| Text := "x"; SelectionBase := 0; SelectionExtent := 5 |});
     (setEditingState_abc_0_3,
      {| Text := "abc"; SelectionBase := 0; SelectionExtent := 3 |})].

(** The plugin after [InitPlugin] on Linux, then with client 7 focused. *)
Definition linuxPlugin : textinputPlugin :=
  fst (InitPlugin "linux" defaultTextinputPlugin).

Definition focusedPlugin : textinputPlugin :=
  fst (handleSetClient decode_args linuxPlugin setClient_7).

(** Editing methods that change nothing and call nothing. *)
Definition idle : Editor := fun p => (p, []).

Definition idleModel : TextModel :=
  {| addChar := fun _ => idle;
     performAction := fun _ => idle;
     MoveCursorHome := fun _ _ _ _ => idle;
     MoveCursorEnd := fun _ _ _ _ => idle;
     MoveCursorLeft := fun _ _ _ _ => idle;
     MoveCursorRight := fun _ _ _ _ => idle;
     Delete := fun _ _ _ _ => idle;
     Backspace := fun _ _ _ _ => idle;
     SelectAll := idle;
     isSelected := fun p => negb (selectionBase p =? selectionExtent p);
     GetSelectedText := fun p => (selectionBase p, selectionExtent p, "");
     RemoveSelectedText := idle |}.

Definition quietHost : Host :=
  {| popRoute_err := None; GetClipboardString := ("", None) |}.

Definition failingClipboard : Host :=
  {| popRoute_err := None;
     GetClipboardString := ("", Some "clipboard unavailable") |}.

(** ** Notions used in the statements *)

Definition keyEvent (key : Z) (typeKey : string) (mods : Z) : KeyEvent :=
  {| KeyCode := key; Keymap := "android"; Type_ := typeKey;
     MetaState := metaState mods |}.

(** A statement is quiet at a state when it falls through and sends no key
    event. *)
Definition quiet (f : Flow) : Prop :=
  match f with
  | Next _ t => keyEventsOf t = []
  | Done _ _ => False
  end.

(** The keys whose case precedes the paste case in the [switch key]. *)
Definition casesBeforePaste (p : textinputPlugin) : list Z :=
  [KeyEnter; KeyHome; KeyEnd; KeyLeft; KeyRight; KeyDelete; KeyBackspace;
   SelectAll_key (keyboardLayout p); Copy_key (keyboardLayout p);
   Cut_key (keyboardLayout p)].

Definition bytesLength (v : GoValue) : nat :=
  match v with
  | VBytes b => List.length b
  | _ => O
  end.

(** [glfwCharCallback]: a typed character is inserted when a client is
    focused. *)
Definition glfwCharCallback (M : TextModel) (p : textinputPlugin) (char : rune)
  : textinputPlugin * list Effect :=
  if PrimFloat.eqb (clientID p) 0%float then (p, [])
  else let '(p', t) := addChar M [char] p in (p', map TextInvoke t).

(** The state and the effects a statement ends with. *)
Definition stateOf (f : Flow) : textinputPlugin :=
  match f with
  | Next p _ | Done p _ => p
  end.

Definition traceOf (f : Flow) : list Effect :=
  match f with
  | Next _ t | Done _ t => t
  end.

(** All effects of a statement satisfy [P]. *)
Definition onlyEffects (P : Effect -> bool) (f : Flow) : Prop :=
  forallb P (traceOf f) = true.

Definition isKeyEvent (e : Effect) : bool :=
  match e with
  | KeyEventSend _ => true
  | _ => false
  end.

Definition isNavigation (e : Effect) : bool :=
  match e with
  | NavigationInvoke _ => true
  | _ => false
  end.

Definition isClipboardWrite (e : Effect) : bool :=
  match e with
  | SetClipboardString _ => true
  | _ => false
  end.

Definition isTextInvoke (e : Effect) : bool :=
  match e with
  | TextInvoke _ => true
  | _ => false
  end.

(** The keys with a case of their own at the head of the [switch key]. *)
Definition editingKeys : list Z :=
  [KeyEnter; KeyHome; KeyEnd; KeyLeft; KeyRight; KeyDelete; KeyBackspace].

(** The same host with another clipboard answer. *)
Definition withClipboard (host : Host) (clip : string * option GoError) : Host :=
  {| popRoute_err := popRoute_err host; GetClipboardString := clip |}.

(** The fields of the plugin that hold the key profile and the shortcuts,
    and those that hold the editing state. *)
Definition profileOf (p : textinputPlugin) : KeyboardShortcuts * Z * Z * Z :=
  (keyboardLayout p, modifierKey p, wordTravellerKey p, wordTravellerKeyShift p).

Definition editingOf (p : textinputPlugin) : float * list rune * Z * Z :=
  (clientID p, word p, selectionBase p, selectionExtent p).

(** The payload [[0,{}]] of a [TextInput.setClient] call and what
    [json.Unmarshal] yields on it. *)
Definition setClient_0 : RawMessage := bs "[0,{}]".

Definition decode_args_zero : RawMessage -> GoError + list GoIface :=
  Unmarshal_table [(setClient_0, [IFloat64 0%float; IMap []])].

(** * Properties *)

(** ** The editing state store *)

Section StoreProperties.

Variable Unmarshal_args : RawMessage -> GoError + list GoIface.
Variable Unmarshal_editingState : RawMessage -> GoError + argsEditingState.

Lemma set_clientID_frame p c :
  word (set_clientID p c) = word p /\
  selectionBase (set_clientID p c) = selectionBase p /\
  selectionExtent (set_clientID p c) = selectionExtent p.
Proof. repeat split. Qed.

Lemma handleSetClient_frame p arguments :
  let p' := fst (handleSetClient Unmarshal_args p arguments) in
  word p' = word p /\
  selectionBase p' = selectionBase p /\
  selectionExtent p' = selectionExtent p.
Proof.
  unfold handleSetClient.
  destruct (Unmarshal_args arguments) as [err | [ | [ | | | | | ] rest]];
    cbn; repeat split.
Qed.

(** C3. With no client focused ([clientID == 0]) [handleSetEditingState]
    returns the error "cannot set editing state when no client is selected"
    for every payload and leaves the whole plugin state as it was. *)
Theorem handleSetEditingState_no_client p arguments
  (Hnone : PrimFloat.eqb (clientID p) 0%float = true) :
  handleSetEditingState Unmarshal_editingState p arguments =
  (p, Returned INil
        (Some "cannot set editing state when no client is selected")).
Proof using Unmarshal_editingState. unfold handleSetEditingState. now rewrite Hnone. Qed.

(** C8. [handleSetClient] keeps the text and both selection ends whatever
    the payload; when the payload decodes to a list that starts with the
    number [id], the focused client becomes [id].  [handleClearClient] sets
    the client to 0 and keeps the text and both selection ends. *)
Theorem client_handlers_keep_text p arguments :
  let p1 := fst (handleSetClient Unmarshal_args p arguments) in
  let p2 := fst (handleClearClient p arguments) in
  (word p1 = word p /\
   selectionBase p1 = selectionBase p /\
   selectionExtent p1 = selectionExtent p) /\
  (forall id rest,
      Unmarshal_args arguments = inr (IFloat64 id :: rest) ->
      clientID p1 = id /\
      snd (handleSetClient Unmarshal_args p arguments) = Returned INil None) /\
  (clientID p2 = 0%float /\
   word p2 = word p /\
   selectionBase p2 = selectionBase p /\
   selectionExtent p2 = selectionExtent p /\
   snd (handleClearClient p arguments) = Returned INil None).
Proof using Unmarshal_args.
  cbv zeta. split; [apply handleSetClient_frame | split].
  - intros id rest Hdec. unfold handleSetClient. rewrite Hdec. easy.
  - repeat split.
Qed.

(** C2 (amended). With a client focused and a payload that decodes,
    [handleSetEditingState] stores the runes of the text and the given base
    and extent as they are, without clamping, and keeps the client; so the
    stored selection lies within [0, length(text)] exactly when the given
    base and extent do.  When no client is focused or the payload does not
    decode, the state stays as it was. *)
Theorem handleSetEditingState_stores_as_given p arguments :
  let p' := fst (handleSetEditingState Unmarshal_editingState p arguments) in
  (forall st,
      PrimFloat.eqb (clientID p) 0%float = false ->
      Unmarshal_editingState arguments = inr st ->
      let n := Z.of_nat (List.length (runes_of_string (Text st))) in
      word p' = runes_of_string (Text st) /\
      selectionBase p' = SelectionBase st /\
      selectionExtent p' = SelectionExtent st /\
      clientID p' = clientID p /\
      (selection_in_range p' <->
       0 <= SelectionBase st <= n /\ 0 <= SelectionExtent st <= n)) /\
  ((PrimFloat.eqb (clientID p) 0%float = true \/
    exists err, Unmarshal_editingState arguments = inl err) ->
   p' = p).
Proof using Unmarshal_editingState.
  cbv zeta. unfold handleSetEditingState. split.
  - intros st Hfocus Hdec. rewrite Hfocus, Hdec. cbn.
    unfold selection_in_range. cbn.
    repeat (split; [reflexivity | ]). apply iff_refl.
  - intros [Hnone | [err Hdec]].
    + now rewrite Hnone.
    + rewrite Hdec. now destruct (PrimFloat.eqb (clientID p) 0%float).
Qed.

End StoreProperties.

Lemma handleSetEditingState_no_client_witness :
  PrimFloat.eqb (clientID linuxPlugin) 0%float = true /\
  handleSetEditingState decode_editingState linuxPlugin setEditingState_x_0_5 =
  (linuxPlugin,
   Returned INil (Some "cannot set editing state when no client is selected")).
Proof.
  split; [reflexivity | ].
  apply (handleSetEditingState_no_client decode_editingState linuxPlugin).
  reflexivity.
Defined.

Lemma client_handlers_keep_text_witness :
  decode_args setClient_7 = inr [IFloat64 7%float; IMap []] /\
  clientID (fst (handleSetClient decode_args linuxPlugin setClient_7)) = 7%float /\
  clientID (fst (handleClearClient focusedPlugin [])) = 0%float.
Proof.
  split; [reflexivity | split].
  - apply (proj1 (proj2 (client_handlers_keep_text decode_args linuxPlugin
                           setClient_7)) 7%float [IMap []]).
    reflexivity.
  - apply (proj2 (proj2 (client_handlers_keep_text decode_args focusedPlugin []))).
Defined.

(** C2, the claim as stated fails: with client 7 focused,
    [setEditingState("x", 0, 5)] stores extent 5 for a text of length 1. *)
Lemma handleSetEditingState_no_clamp :
  PrimFloat.eqb (clientID focusedPlugin) 0%float = false /\
  decode_editingState setEditingState_x_0_5 =
    inr {| Text := "x"; SelectionBase := 0; SelectionExtent := 5 |} /\
  let p' := fst (handleSetEditingState decode_editingState focusedPlugin
                   setEditingState_x_0_5) in
  word p' = [120] /\ selectionBase p' = 0 /\ selectionExtent p' = 5 /\
  ~ selection_in_range p'.
Proof.
  split; [reflexivity | split; [reflexivity | ]].
  cbv zeta. repeat split.
  unfold selection_in_range. cbn. lia.
Qed.

Lemma handleSetEditingState_stores_as_given_witness :
  let p' := fst (handleSetEditingState decode_editingState focusedPlugin
                   setEditingState_abc_0_3) in
  word p' = [97; 98; 99] /\ selectionBase p' = 0 /\ selectionExtent p' = 3 /\
  clientID p' = 7%float /\ selection_in_range p'.
Proof.
  cbv zeta.
  destruct (proj1 (handleSetEditingState_stores_as_given decode_editingState
                     focusedPlugin setEditingState_abc_0_3)
              {| Text := "abc"; SelectionBase := 0; SelectionExtent := 3 |}
              eq_refl eq_refl)
    as (Hw & Hb & He & Hc & Hinv).
  repeat (split; [assumption | ]).
  apply (proj2 Hinv). cbn. lia.
Defined.

(** ** The key profile and the modifier classes *)

Lemma classifyMods_one_class p mods :
  exists k, classOf (classifyMods p mods) = Some k.
Proof.
  unfold classifyMods.
  repeat match goal with
         | |- context [if ?b then _ else _] => destruct b
         end; cbn; eauto.
Qed.

Lemma InitPlugin_profile goos p0 :
  let p := fst (InitPlugin goos p0) in
  (String.eqb goos "darwin" = true /\
   modifierKey p = ModSuper /\ wordTravellerKey p = ModAlt /\
   wordTravellerKeyShift p = Z.lor ModAlt ModShift) \/
  (String.eqb goos "darwin" = false /\
   modifierKey p = ModControl /\ wordTravellerKey p = ModControl /\
   wordTravellerKeyShift p = Z.lor ModControl ModShift).
Proof.
  cbv zeta. unfold InitPlugin.
  destruct (String.eqb goos "darwin"); [left | right]; repeat split.
Qed.

(** C5 (amended). After [InitPlugin] the held modifier set always gets
    exactly one class, chosen by the first exact match in the order
    word-travel-plus-shift, word-travel, primary modifier, shift, and none
    when nothing matches.  Word-travel-plus-shift, word-travel and shift
    alone classify as such.  The primary modifier classifies as
    primaryModifier under the macOS profile; under the default profile it is
    Control, the same set as the word-travel modifier, and classifies as
    wordTravel. *)
Theorem classifyMods_first_match goos p0 mods :
  let p := fst (InitPlugin goos p0) in
  let c := classOf (classifyMods p mods) in
  (exists k, c = Some k) /\
  (mods = wordTravellerKeyShift p -> c = Some ClassWordTravelExtend) /\
  (mods = wordTravellerKey p -> c = Some ClassWordTravel) /\
  (mods = modifierKey p ->
   c = Some (if String.eqb goos "darwin" then ClassPrimaryModifier
             else ClassWordTravel)) /\
  (mods = ModShift -> c = Some ClassShift) /\
  (mods <> wordTravellerKeyShift p -> mods <> wordTravellerKey p ->
   mods <> modifierKey p -> mods <> ModShift -> c = Some ClassNone).
Proof.
  cbv zeta. split; [apply classifyMods_one_class | ].
  destruct (InitPlugin_profile goos p0) as [(Hos & Hm & Hw & Hws) | (Hos & Hm & Hw & Hws)];
    unfold classifyMods; rewrite Hos, Hm, Hw, Hws;
    (repeat split; [intros -> ..| intros N1 N2 N3 N4]; try reflexivity);
    apply Z.eqb_neq in N1, N2, N3, N4; now rewrite ?N1, ?N2, ?N3, ?N4.
Qed.

Lemma classifyMods_first_match_witness :
  classOf (classifyMods (fst (InitPlugin "darwin" defaultTextinputPlugin))
             ModSuper) = Some ClassPrimaryModifier /\
  classOf (classifyMods (fst (InitPlugin "linux" defaultTextinputPlugin))
             (Z.lor ModControl ModShift)) = Some ClassWordTravelExtend.
Proof.
  split.
  - apply (proj1 (proj2 (proj2 (proj2
             (classifyMods_first_match "darwin" defaultTextinputPlugin ModSuper))))).
    reflexivity.
  - apply (proj1 (proj2
             (classifyMods_first_match "linux" defaultTextinputPlugin
                (Z.lor ModControl ModShift)))).
    reflexivity.
Defined.

(** C5, the claim as stated fails: under the default profile the held set
    Control equals the primary modifier, yet its class is wordTravel. *)
Lemma classifyMods_control_is_wordTravel :
  ModControl = modifierKey linuxPlugin /\
  classifyMods linuxPlugin ModControl =
    {| modsIsModfifier := false; modsIsShift := false;
       modsIsWordModifierShift := false; modsIsWordModifier := true |} /\
  classOf (classifyMods linuxPlugin ModControl) <> Some ClassPrimaryModifier.
Proof. repeat split. discriminate. Qed.

(** ** The meta state *)

Lemma metaState_bit0 mods :
  Z.testbit (metaState mods) 0 = modHeld mods ModShift /\
  Z.testbit (metaState mods) 1 = modHeld mods ModAlt /\
  Z.testbit (metaState mods) 12 = modHeld mods ModControl /\
  Z.testbit (metaState mods) 16 = modHeld mods ModSuper.
Proof.
  unfold metaState.
  destruct (modHeld mods ModShift), (modHeld mods ModAlt),
    (modHeld mods ModControl), (modHeld mods ModSuper); repeat split.
Qed.

(** C9. The meta state is an injective code of the held modifiers: shift,
    alt, control and super set bit 0, bit 1, bit 12 and bit 16 and no other
    bit is ever set, so two modifier states give the same meta state exactly
    when the same of the four modifiers are held, and the meta state is 0
    exactly when none of them is held. *)
Theorem metaState_injective mods1 mods2 :
  let held mods := (modHeld mods ModShift, modHeld mods ModAlt,
                    modHeld mods ModControl, modHeld mods ModSuper) in
  (Z.testbit (metaState mods1) 0 = modHeld mods1 ModShift /\
   Z.testbit (metaState mods1) 1 = modHeld mods1 ModAlt /\
   Z.testbit (metaState mods1) 12 = modHeld mods1 ModControl /\
   Z.testbit (metaState mods1) 16 = modHeld mods1 ModSuper) /\
  metaState mods1 =
    Z.b2z (modHeld mods1 ModShift) * 2 ^ 0 + Z.b2z (modHeld mods1 ModAlt) * 2 ^ 1 +
    Z.b2z (modHeld mods1 ModControl) * 2 ^ 12 +
    Z.b2z (modHeld mods1 ModSuper) * 2 ^ 16 /\
  (metaState mods1 = metaState mods2 <-> held mods1 = held mods2) /\
  (metaState mods1 = 0 <-> held mods1 = (false, false, false, false)).
Proof.
  cbv zeta. unfold metaState.
  destruct (modHeld mods1 ModShift), (modHeld mods1 ModAlt),
    (modHeld mods1 ModControl), (modHeld mods1 ModSuper);
    (split; [repeat split | split; [reflexivity | ]]);
    (split; [ | split; [discriminate || reflexivity | discriminate || reflexivity] ]);
    destruct (modHeld mods2 ModShift), (modHeld mods2 ModAlt),
      (modHeld mods2 ModControl), (modHeld mods2 ModSuper);
    split; (discriminate || reflexivity).
Qed.

(** ** The key callback *)

Lemma keyEventsOf_app t1 t2 :
  keyEventsOf (t1 ++ t2) = keyEventsOf t1 ++ keyEventsOf t2.
Proof.
  induction t1 as [ | e t1 IH]; [reflexivity | ].
  destruct e; cbn; rewrite IH; reflexivity.
Qed.

Lemma keyEventsOf_TextInvoke calls : keyEventsOf (map TextInvoke calls) = [].
Proof. induction calls; [reflexivity | assumption]. Qed.

Lemma quiet_skip p : quiet (skip p).
Proof. reflexivity. Qed.

Lemma quiet_edit ed p : quiet (edit ed p).
Proof. unfold edit. destruct (ed p). apply keyEventsOf_TextInvoke. Qed.

Lemma quiet_clipboard s p : quiet (emit (SetClipboardString s) p).
Proof. reflexivity. Qed.

Lemma quiet_seq (a b : Proc) p :
  quiet (a p) -> (forall p', quiet (b p')) -> quiet ((a ;; b) p).
Proof.
  unfold seq. intros Ha Hb. destruct (a p) as [p1 t1 | p1 t1]; [ | contradiction].
  specialize (Hb p1). destruct (b p1) as [p2 t2 | p2 t2]; [ | contradiction].
  cbn in *. rewrite keyEventsOf_app, Ha, Hb. reflexivity.
Qed.

Lemma quiet_withFlags f fl p : quiet (withFlags f fl p).
Proof. apply quiet_edit. Qed.

Create HintDb quiet.
#[local] Hint Resolve quiet_skip quiet_edit quiet_clipboard quiet_seq
  quiet_withFlags : quiet.

Section CallbackProperties.

Variable M : TextModel.

(** With a readable clipboard every case of the [switch key] falls through
    to the key-event part and sends no key event itself. *)
Lemma keySwitch_quiet host key mods fl p :
  snd (GetClipboardString host) = None ->
  quiet (keySwitch M host key mods fl p).
Proof.
  intros Hclip. unfold keySwitch.
  destruct (GetClipboardString host) as [clpString err]. cbn in Hclip. subst err.
  repeat match goal with
         | |- quiet ((if ?b then _ else _) _) => destruct b
         | |- quiet (if ?b then _ else _) => destruct b
         | |- context [GetSelectedText M ?x] =>
           destruct (GetSelectedText M x) as [[? ?] ?]
         end; auto with quiet.
Qed.

(** Every release is forwarded as one "keyup" event and changes nothing. *)
Lemma release_forwards host p key scancode mods :
  glfwKeyCallback M host p key scancode Release mods =
  (p, [KeyEventSend (keyEvent key "keyup" mods)]).
Proof.
  unfold glfwKeyCallback, glfwKeyCallback_body, run, seq.
  rewrite andb_false_r. reflexivity.
Qed.

(** A press of a key other than Escape, with a client focused and a
    readable clipboard, ends by sending one "keydown" event. *)
Lemma press_forwards host p key scancode mods :
  key <> KeyEscape ->
  PrimFloat.eqb (clientID p) 0%float = false ->
  snd (GetClipboardString host) = None ->
  exists p' t,
    glfwKeyCallback M host p key scancode Press mods =
      (p', t ++ [KeyEventSend (keyEvent key "keydown" mods)]) /\
    keyEventsOf t = [].
Proof.
  intros Hkey Hfocus Hclip.
  pose proof (keySwitch_quiet host key mods (classifyMods p mods) p Hclip) as Hq.
  unfold glfwKeyCallback, glfwKeyCallback_body, run, seq.
  apply Z.eqb_neq in Hkey. rewrite Hkey. cbn. rewrite Hfocus. unfold skip.
  destruct (keySwitch M host key mods (classifyMods p mods) p) as [p1 t1 | p1 t1];
    [ | contradiction].
  exists p1, t1. split; [reflexivity | exact Hq].
Qed.

(** C6. A press of Escape invokes [popRoute] on the navigation channel,
    logs the error if that invocation fails, and returns: the plugin state
    is unchanged, no editing method runs and no key event is sent. *)
Theorem escape_press_pops_route host p scancode mods :
  let r := glfwKeyCallback M host p KeyEscape scancode Press mods in
  r = (p, NavigationInvoke popRoute ::
          match popRoute_err host with
          | Some err =>
            [Printf ("go-flutter: failed to pop route after escape key press: %v" ++ nl)
                    (ArgError err)]
          | None => []
          end) /\
  keyEventsOf (snd r) = [] /\
  (forall c, ~ In (TextInvoke c) (snd r)) /\
  (forall s, ~ In (SetClipboardString s) (snd r)).
Proof.
  cbv zeta. unfold glfwKeyCallback, glfwKeyCallback_body, run, seq. cbn.
  destruct (popRoute_err host) as [err | ]; cbn;
    (split; [reflexivity | split; [reflexivity | split]]);
    intros x Hin; cbn in Hin; intuition discriminate.
Qed.

(** C10. A release of Escape is not intercepted: it is forwarded as one
    key event of type "keyup" carrying the Escape key code, no route is
    popped, and the plugin state is unchanged. *)
Theorem escape_release_forwards host p scancode mods :
  glfwKeyCallback M host p KeyEscape scancode Release mods =
  (p, [KeyEventSend {| KeyCode := KeyEscape; Keymap := "android";
                       Type_ := "keyup"; MetaState := metaState mods |}]).
Proof. apply release_forwards. Qed.

(** C4 (amended). For every key other than Escape and all modifier states,
    with a client focused and the clipboard readable, a press followed by
    the release of the key sends exactly two key events, "keydown" then
    "keyup", both with the key's code; and when shift is held at the press,
    bit 0 of the meta state of the "keydown" event is set. *)
Theorem press_release_two_events host1 host2 p key sc1 sc2 mods1 mods2 :
  key <> KeyEscape ->
  PrimFloat.eqb (clientID p) 0%float = false ->
  snd (GetClipboardString host1) = None ->
  let r1 := glfwKeyCallback M host1 p key sc1 Press mods1 in
  let r2 := glfwKeyCallback M host2 (fst r1) key sc2 Release mods2 in
  keyEventsOf (snd r1 ++ snd r2) =
    [ {| KeyCode := key; Keymap := "android"; Type_ := "keydown";
         MetaState := metaState mods1 |};
      {| KeyCode := key; Keymap := "android"; Type_ := "keyup";
         MetaState := metaState mods2 |} ] /\
  (Z.land mods1 ModShift <> 0 -> Z.testbit (metaState mods1) 0 = true).
Proof.
  intros Hkey Hfocus Hclip. cbv zeta.
  destruct (press_forwards host1 p key sc1 mods1 Hkey Hfocus Hclip)
    as (p1 & t1 & Hpress & Hquiet).
  rewrite Hpress, release_forwards. cbn [fst snd]. split.
  - rewrite !keyEventsOf_app, Hquiet. reflexivity.
  - intros Hshift. apply Z.eqb_neq in Hshift.
    destruct (metaState_bit0 mods1) as [Hbit _]. 
    rewrite Hbit. unfold modHeld. now rewrite Hshift.
Qed.

End CallbackProperties.

Lemma press_release_two_events_witness :
  let r1 := glfwKeyCallback idleModel quietHost focusedPlugin 65 38 Press ModShift in
  let r2 := glfwKeyCallback idleModel quietHost (fst r1) 65 38 Release 0 in
  keyEventsOf (snd r1 ++ snd r2) =
    [ {| KeyCode := 65; Keymap := "android"; Type_ := "keydown"; MetaState := 1 |};
      {| KeyCode := 65; Keymap := "android"; Type_ := "keyup"; MetaState := 0 |} ] /\
  Z.testbit (metaState ModShift) 0 = true.
Proof.
  cbv zeta.
  assert (Hkey : 65 <> KeyEscape) by (unfold KeyEscape; lia).
  assert (Hshift : Z.land ModShift ModShift <> 0) by (vm_compute; discriminate).
  destruct (press_release_two_events idleModel quietHost quietHost focusedPlugin
              65 38 38 ModShift 0 Hkey eq_refl eq_refl) as [Hev Hbit].
  split; [exact Hev | exact (Hbit Hshift)].
Defined.

(** C4, the claim as stated fails: a press of Escape followed by its
    release sends one key event only, the "keyup" of the release. *)
Lemma escape_press_release_one_event :
  let r1 := glfwKeyCallback idleModel quietHost focusedPlugin KeyEscape 9 Press 0 in
  let r2 := glfwKeyCallback idleModel quietHost (fst r1) KeyEscape 9 Release 0 in
  snd r1 = [NavigationInvoke popRoute] /\
  keyEventsOf (snd r1 ++ snd r2) =
    [ {| KeyCode := KeyEscape; Keymap := "android"; Type_ := "keyup";
         MetaState := 0 |} ] /\
  List.length (keyEventsOf (snd r1 ++ snd r2)) <> 2%nat.
Proof. cbv zeta. repeat split. cbn. lia. Qed.

(** The guard [if p.clientID == 0 { return }] of the press-or-repeat block
    leaves the callback: with no client focused a press other than of
    Escape has no effect at all, so no "keydown" event goes out, while the
    release still sends its "keyup" ([release_forwards]). *)
Lemma press_without_client_returns M host p key scancode mods :
  key <> KeyEscape ->
  PrimFloat.eqb (clientID p) 0%float = true ->
  glfwKeyCallback M host p key scancode Press mods = (p, []).
Proof.
  intros Hkey Hnone. apply Z.eqb_neq in Hkey.
  unfold glfwKeyCallback, glfwKeyCallback_body, run, seq.
  rewrite Hkey. cbn. rewrite Hnone. reflexivity.
Qed.

(** C7. A press of the paste binding with the primary modifier held, a
    client focused and a failing clipboard read logs the failure and
    returns from the callback: the plugin state is unchanged, and the
    "keydown" event of this press is not sent either. *)
Theorem paste_failure_returns M host p key scancode mods clpString err :
  PrimFloat.eqb (clientID p) 0%float = false ->
  key <> KeyEscape ->
  ~ In key (casesBeforePaste p) ->
  key = Paste_key (keyboardLayout p) ->
  mods = modifierKey p ->
  GetClipboardString host = (clpString, Some err) ->
  let r := glfwKeyCallback M host p key scancode Press mods in
  r = (p, [Printf ("go-flutter: unable to get the clipboard content: %v" ++ nl)
                  (ArgError err)]) /\
  keyEventsOf (snd r) = [].
Proof.
  intros Hfocus Hesc Hbefore Hpaste Hmods Hclip. cbv zeta.
  unfold casesBeforePaste in Hbefore. cbn [In] in Hbefore.
  assert (Hc : forall k, (k = key -> False) -> (key =? k) = false)
    by (intros k Hk; apply Z.eqb_neq; congruence).
  unfold glfwKeyCallback, glfwKeyCallback_body, run, seq, keySwitch.
  rewrite (Hc KeyEscape) by congruence. cbn.
  rewrite Hfocus. cbn.
  rewrite (Hc KeyEnter), (Hc KeyHome), (Hc KeyEnd), (Hc KeyLeft), (Hc KeyRight),
    (Hc KeyDelete), (Hc KeyBackspace), (Hc (SelectAll_key (keyboardLayout p))),
    (Hc (Copy_key (keyboardLayout p))), (Hc (Cut_key (keyboardLayout p)))
    by tauto.
  rewrite <- Hpaste, <- Hmods, !Z.eqb_refl, Hclip. cbn.
  split; reflexivity.
Qed.

Lemma paste_failure_returns_witness :
  let r := glfwKeyCallback idleModel failingClipboard focusedPlugin 86 55 Press
             ModControl in
  r = (focusedPlugin,
       [Printf ("go-flutter: unable to get the clipboard content: %v" ++ nl)
               (ArgError "clipboard unavailable")]) /\
  keyEventsOf (snd r) = [].
Proof.
  apply (paste_failure_returns idleModel failingClipboard focusedPlugin 86 55
           ModControl "" "clipboard unavailable").
  - reflexivity.
  - unfold KeyEscape; lia.
  - vm_compute. intuition discriminate.
  - reflexivity.
  - reflexivity.
  - reflexivity.
Defined.

(** The same press with a readable clipboard sends its "keydown" event. *)
Lemma paste_success_forwards :
  keyEventsOf (snd (glfwKeyCallback idleModel quietHost focusedPlugin 86 55 Press
                      ModControl)) =
  [ {| KeyCode := 86; Keymap := "android"; Type_ := "keydown";
       MetaState := androidMetaStateCtrl |} ].
Proof. reflexivity. Qed.

(** ** The JSON message codec *)

(** [DecodeMessage] has no error case and always yields a [[]byte]. *)
Lemma DecodeMessage_total binaryMessage :
  exists out, DecodeMessage binaryMessage = (VBytes out, None).
Proof. unfold DecodeMessage. eauto. Qed.

Lemma list_ind3 (A : Type) (P : list A -> Prop) :
  P [] -> (forall a, P [a]) -> (forall a b, P [a; b]) ->
  (forall a b c rest, P rest -> P (a :: b :: c :: rest)) ->
  forall l, P l.
Proof.
  intros H0 H1 H2 H3.
  assert (H : forall l, P l /\ (forall a, P (a :: l)) /\ (forall a b, P (a :: b :: l))).
  { induction l as [ | x l (IH0 & IH1 & IH2)].
    - repeat split; auto.
    - repeat split; auto. }
  intros l. apply H.
Qed.

(** The base64 text is at least as long as the bytes it encodes. *)
Lemma base64_Encode_length src :
  (List.length src <= List.length (base64_Encode src))%nat.
Proof.
  induction src as [ | a | a b | a b c rest IH] using list_ind3;
    cbn [base64_Encode List.length]; lia.
Qed.

Lemma json_Marshal_bytes_length b :
  List.length (json_Marshal (VBytes b)) = S (S (List.length (base64_Encode b))).
Proof.
  change (json_Marshal (VBytes b)) with (quote :: base64_Encode b ++ [quote]).
  cbn [List.length]. rewrite length_app. cbn [List.length]. lia.
Qed.

Lemma json_Marshal_singleton_length x :
  List.length (json_Marshal (VSlice [x])) = S (S (List.length (json_Marshal x))).
Proof.
  change (json_Marshal (VSlice [x]))
    with ("["%byte :: (json_Marshal x ++ []) ++ ["]"%byte]).
  cbn [List.length]. rewrite !length_app. cbn [List.length]. lia.
Qed.

(** X23. Decoding the encoding of a message never gives the message back. *)
Lemma DecodeMessage_EncodeMessage_differs v :
  fst (DecodeMessage (fst (EncodeMessage v))) <> v.
Proof.
  unfold EncodeMessage, DecodeMessage. cbn [fst bytesValue].
  destruct v; try (intros H; discriminate H).
  intros Heq. apply (f_equal bytesLength) in Heq. cbn [bytesLength] in Heq.
  rewrite json_Marshal_singleton_length, !json_Marshal_bytes_length in Heq.
  pose proof (base64_Encode_length b) as H1.
  pose proof (base64_Encode_length (json_Marshal (VBytes b))) as H2.
  rewrite json_Marshal_bytes_length in H2.
  lia.
Qed.

(** C1. [DecodeMessage] marshals its argument instead of unmarshalling it.
    The encoding of [nil] is [null]; decoding these bytes yields, without
    error, the byte slice [["bnVsbA=="]] (a JSON array holding the base64
    text of the input) and not [nil].  The ill-formed input [{] is accepted
    in the same way and yields [["ew=="]] without error. *)
Theorem DecodeMessage_marshals_again :
  EncodeMessage VNil = (Some (bs "null"), None) /\
  DecodeMessage (fst (EncodeMessage VNil)) =
    (VBytes (bs "[" ++ quote :: bs "bnVsbA==" ++ quote :: bs "]"), None) /\
  fst (DecodeMessage (fst (EncodeMessage VNil))) <> VNil /\
  DecodeMessage (Some (bs "{")) =
    (VBytes (bs "[" ++ quote :: bs "ew==" ++ quote :: bs "]"), None).
Proof. repeat split. discriminate. Qed.

(** * Further properties of the code *)

(** ** Shape of the callback *)

Lemma onlyEffects_skip P p : onlyEffects P (skip p).
Proof. reflexivity. Qed.

Lemma onlyEffects_ret P p : onlyEffects P (ret p).
Proof. reflexivity. Qed.

Lemma onlyEffects_emit P e p : P e = true -> onlyEffects P (emit e p).
Proof. unfold onlyEffects. cbn. now intros ->. Qed.

Lemma onlyEffects_edit P ed p :
  (forall c, P (TextInvoke c) = true) -> onlyEffects P (edit ed p).
Proof.
  intros HP. unfold onlyEffects, edit. destruct (ed p) as [p' t]. cbn.
  induction t as [ | c t IH]; cbn; [reflexivity | now rewrite HP].
Qed.

Lemma onlyEffects_seq P (a b : Proc) p :
  onlyEffects P (a p) -> (forall p', onlyEffects P (b p')) ->
  onlyEffects P ((a ;; b) p).
Proof.
  unfold onlyEffects, seq. intros Ha Hb.
  destruct (a p) as [p1 t1 | p1 t1]; [ | exact Ha].
  specialize (Hb p1). destruct (b p1) as [p2 t2 | p2 t2]; cbn in *;
    rewrite forallb_app, Ha, Hb; reflexivity.
Qed.

Lemma keyEventsOf_none t :
  forallb (fun e => negb (isKeyEvent e)) t = true -> keyEventsOf t = [].
Proof.
  induction t as [ | e t IH]; [reflexivity | ].
  cbn. intros H. apply andb_true_iff in H as [He Ht].
  destruct e; cbn in *; try discriminate; auto.
Qed.

Lemma forallb_not_In (P : Effect -> bool) t e :
  forallb P t = true -> P e = false -> ~ In e t.
Proof.
  intros Hall He Hin. rewrite forallb_forall in Hall.
  specialize (Hall e Hin). congruence.
Qed.

Section CallbackShape.

Variable M : TextModel.

(** The [switch key] only calls editing methods, writes the clipboard and
    logs. *)
Lemma keySwitch_onlyEffects P host key mods fl p :
  (forall c, P (TextInvoke c) = true) ->
  (forall s, P (SetClipboardString s) = true) ->
  (forall f a, P (Printf f a) = true) ->
  onlyEffects P (keySwitch M host key mods fl p).
Proof.
  intros Ht Hc Hp. unfold keySwitch, withFlags.
  destruct (GetClipboardString host) as [clpString [err | ]];
  repeat match goal with
         | |- onlyEffects _ ((if ?b then _ else _) _) => destruct b
         | |- onlyEffects _ (if ?b then _ else _) => destruct b
         | |- context [GetSelectedText M ?x] =>
           destruct (GetSelectedText M x) as [[? ?] ?]
         end;
  repeat first [ apply onlyEffects_skip | apply onlyEffects_ret
               | apply onlyEffects_edit; assumption
               | apply onlyEffects_emit; auto
               | apply onlyEffects_seq; [ | intros ? ] ].
Qed.

(** The callback outside the Escape-press case, spelled out. *)
Lemma glfwKeyCallback_unfold host p key scancode action mods :
  (key =? KeyEscape) && (action =? Press) = false ->
  glfwKeyCallback M host p key scancode action mods =
  if (action =? Repeat) || (action =? Press) then
    if PrimFloat.eqb (clientID p) 0%float then (p, [])
    else
      match keySwitch M host key mods (classifyMods p mods) p with
      | Done p1 t1 => (p1, t1)
      | Next p1 t1 =>
        (p1, t1 ++ traceOf (sendKeyEvent key action mods p1))
      end
  else (p, traceOf (sendKeyEvent key action mods p)).
Proof.
  intros Hesc.
  unfold glfwKeyCallback, glfwKeyCallback_body, run, seq. rewrite Hesc.
  unfold skip at 1.
  destruct ((action =? Repeat) || (action =? Press)) eqn:Hact.
  - destruct (PrimFloat.eqb (clientID p) 0%float); [reflexivity | ].
    unfold skip at 1.
    destruct (keySwitch M host key mods (classifyMods p mods) p) as [p1 t1 | p1 t1];
      [ | reflexivity].
    cbn [app].
    unfold sendKeyEvent, seq, emit, ret.
    destruct (action =? Release), (action =? Press); reflexivity.
  - unfold skip at 1. cbn [app].
    unfold sendKeyEvent, seq, emit, ret.
    destruct (action =? Release), (action =? Press); reflexivity.
Qed.

End CallbackShape.

(** ** What one callback can do *)

Section CallbackExtras.

Variable M : TextModel.

Lemma keySwitch_no_key_event host key mods fl p :
  keyEventsOf (traceOf (keySwitch M host key mods fl p)) = [].
Proof.
  apply keyEventsOf_none.
  apply (keySwitch_onlyEffects M (fun e => negb (isKeyEvent e))); reflexivity.
Qed.

Lemma action_split action :
  action = Release \/ action = Press \/ action = Repeat \/
  ((action =? Release) = false /\ (action =? Press) = false /\
   (action =? Repeat) = false).
Proof.
  destruct (Z.eqb_spec action Release); [auto | ].
  destruct (Z.eqb_spec action Press); [auto | ].
  destruct (Z.eqb_spec action Repeat); [auto | ].
  do 3 right. repeat split.
Qed.

(** X1. One callback sends at most one key event: none, or the "keydown" of a
    press, or the "keyup" of a release, carrying the key code, the keymap
    "android" and the meta state of the held modifiers. *)
Theorem callback_sends_at_most_one_key_event host p key scancode action mods :
  let sent := keyEventsOf (snd (glfwKeyCallback M host p key scancode action mods)) in
  sent = [] \/
  (action = Press /\ sent = [keyEvent key "keydown" mods]) \/
  (action = Release /\ sent = [keyEvent key "keyup" mods]).
Proof.
  cbv zeta.
  destruct ((key =? KeyEscape) && (action =? Press)) eqn:Hesc.
  - left. apply andb_true_iff in Hesc as [Hk Ha].
    apply Z.eqb_eq in Hk, Ha. subst.
    unfold glfwKeyCallback, glfwKeyCallback_body, run, seq. cbn.
    destruct (popRoute_err host); reflexivity.
  - rewrite (glfwKeyCallback_unfold M host p key scancode action mods Hesc).
    pose proof (keySwitch_no_key_event host key mods (classifyMods p mods) p) as Hsw.
    destruct (action_split action) as [-> | [-> | [-> | (H1 & H2 & H3)]]].
    + right; right. split; reflexivity.
    + cbn [Z.eqb Press Repeat Pos.eqb orb].
      destruct (PrimFloat.eqb (clientID p) 0%float); [left; reflexivity | ].
      destruct (keySwitch M host key mods (classifyMods p mods) p) as [p1 t1 | p1 t1];
        cbn [traceOf] in Hsw; cbn [snd].
      * right; left. split; [reflexivity | ].
        rewrite keyEventsOf_app, Hsw. reflexivity.
      * left. exact Hsw.
    + left. cbn [Z.eqb Press Repeat Pos.eqb orb].
      destruct (PrimFloat.eqb (clientID p) 0%float); [reflexivity | ].
      destruct (keySwitch M host key mods (classifyMods p mods) p) as [p1 t1 | p1 t1];
        cbn [traceOf] in Hsw; cbn [snd]; [ | exact Hsw].
      rewrite keyEventsOf_app, Hsw. reflexivity.
    + left. rewrite H2, H3. cbn [orb snd].
      unfold sendKeyEvent. rewrite H1, H2. reflexivity.
Qed.

(** X2. A repeat never sends a key event; for a key other than Escape it leaves
    the plugin in the same state as a press does. *)
Theorem repeat_edits_like_press host p key scancode mods :
  keyEventsOf (snd (glfwKeyCallback M host p key scancode Repeat mods)) = [] /\
  (key <> KeyEscape ->
   fst (glfwKeyCallback M host p key scancode Repeat mods) =
   fst (glfwKeyCallback M host p key scancode Press mods)).
Proof.
  pose proof (keySwitch_no_key_event host key mods (classifyMods p mods) p) as Hsw.
  assert (Hrep : (key =? KeyEscape) && (Repeat =? Press) = false)
    by apply andb_false_r.
  rewrite (glfwKeyCallback_unfold M host p key scancode Repeat mods Hrep).
  cbn [Z.eqb Press Repeat Pos.eqb orb]. split.
  - destruct (PrimFloat.eqb (clientID p) 0%float); [reflexivity | ].
    destruct (keySwitch M host key mods (classifyMods p mods) p) as [p1 t1 | p1 t1];
      cbn [traceOf] in Hsw; cbn [snd]; [ | exact Hsw].
    rewrite keyEventsOf_app, Hsw. reflexivity.
  - intros Hkey. apply Z.eqb_neq in Hkey.
    assert (Hpress : (key =? KeyEscape) && (Press =? Press) = false)
      by (rewrite Hkey; reflexivity).
    rewrite (glfwKeyCallback_unfold M host p key scancode Press mods Hpress).
    cbn [Z.eqb Press Repeat Pos.eqb orb].
    destruct (PrimFloat.eqb (clientID p) 0%float); [reflexivity | ].
    destruct (keySwitch M host key mods (classifyMods p mods) p); reflexivity.
Qed.

(** X3. An action that is neither release, press nor repeat is only logged:
    the state is unchanged and nothing else happens, Escape included. *)
Theorem unknown_action_only_logs host p key scancode action mods :
  action <> Release -> action <> Press -> action <> Repeat ->
  glfwKeyCallback M host p key scancode action mods =
  (p, [Printf ("go-flutter: failed to send key event, action: %v" ++ nl)
              (ArgAction action)]).
Proof.
  intros H1 H2 H3. apply Z.eqb_neq in H1, H2, H3.
  rewrite glfwKeyCallback_unfold by (rewrite H2; apply andb_false_r).
  rewrite H2, H3. cbn [orb]. unfold sendKeyEvent. rewrite H1, H2. reflexivity.
Qed.

(** X4. With no client focused a press or a repeat does nothing at all, unless
    it is the press of Escape: no editing, no log and no key event. *)
Theorem unfocused_press_or_repeat_is_inert host p key scancode action mods :
  PrimFloat.eqb (clientID p) 0%float = true ->
  action = Press \/ action = Repeat ->
  (key = KeyEscape -> action = Repeat) ->
  glfwKeyCallback M host p key scancode action mods = (p, []).
Proof.
  intros Hnone Hact Hesc.
  assert (Hne : (key =? KeyEscape) && (action =? Press) = false).
  { destruct (Z.eqb_spec key KeyEscape) as [Hk | Hk]; [ | reflexivity].
    rewrite (Hesc Hk). reflexivity. }
  rewrite (glfwKeyCallback_unfold M host p key scancode action mods Hne), Hnone.
  destruct Hact as [-> | ->]; reflexivity.
Qed.

(** X5. Every release is forwarded as one "keyup" event and has no other
    effect, whatever the key, the focus, the clipboard and the editing
    methods are. *)
Theorem release_only_forwards host p key scancode mods :
  glfwKeyCallback M host p key scancode Release mods =
  (p, [KeyEventSend (keyEvent key "keyup" mods)]).
Proof.
  rewrite glfwKeyCallback_unfold by apply andb_false_r. reflexivity.
Qed.

(** X6. The navigation channel is used by the press of Escape only. *)
Theorem popRoute_only_on_escape_press host p key scancode action mods c :
  key <> KeyEscape \/ action <> Press ->
  ~ In (NavigationInvoke c)
       (snd (glfwKeyCallback M host p key scancode action mods)).
Proof.
  intros Hne.
  assert (Hesc : (key =? KeyEscape) && (action =? Press) = false).
  { apply andb_false_iff. destruct Hne as [H | H]; [left | right];
      now apply Z.eqb_neq. }
  rewrite (glfwKeyCallback_unfold M host p key scancode action mods Hesc).
  apply forallb_not_In with (P := fun e => negb (isNavigation e));
    [ | reflexivity].
  pose proof (keySwitch_onlyEffects M (fun e => negb (isNavigation e)) host key
                mods (classifyMods p mods) p (fun _ => eq_refl) (fun _ => eq_refl)
                (fun _ _ => eq_refl)) as Hsw.
  unfold onlyEffects in Hsw.
  assert (Hsend : forall p1,
             forallb (fun e => negb (isNavigation e))
                     (traceOf (sendKeyEvent key action mods p1)) = true).
  { intros p1. unfold sendKeyEvent, seq, emit, ret.
    destruct (action =? Release), (action =? Press); reflexivity. }
  destruct ((action =? Repeat) || (action =? Press)).
  - destruct (PrimFloat.eqb (clientID p) 0%float); [reflexivity | ].
    destruct (keySwitch M host key mods (classifyMods p mods) p) as [p1 t1 | p1 t1];
      cbn [traceOf] in Hsw; cbn [snd]; [ | exact Hsw].
    rewrite forallb_app, Hsw. apply Hsend.
  - apply Hsend.
Qed.

End CallbackExtras.

(** ** Clipboard, shortcuts and plain keys *)

Section ShortcutExtras.

Variable M : TextModel.

Ltac split_keys :=
  repeat match goal with
         | |- context [Z.eqb ?k ?x] => destruct (Z.eqb_spec k x)
         end.

Lemma keySwitch_clipboard_indep host clip key mods fl p :
  key <> Paste_key (keyboardLayout p) \/ mods <> modifierKey p ->
  keySwitch M (withClipboard host clip) key mods fl p =
  keySwitch M host key mods fl p.
Proof.
  intros Hne. unfold keySwitch. split_keys; try reflexivity.
  exfalso. destruct Hne; congruence.
Qed.

(** X7. The clipboard is read by the paste binding with the primary modifier
    only: for any other key or modifier set the callback does the same
    whatever the clipboard would answer. *)
Theorem clipboard_read_only_by_paste host clip p key scancode action mods :
  key <> Paste_key (keyboardLayout p) \/ mods <> modifierKey p ->
  glfwKeyCallback M (withClipboard host clip) p key scancode action mods =
  glfwKeyCallback M host p key scancode action mods.
Proof.
  intros Hne.
  destruct ((key =? KeyEscape) && (action =? Press)) eqn:Hesc.
  - unfold glfwKeyCallback, glfwKeyCallback_body, run, seq. rewrite Hesc. cbn.
    destruct (popRoute_err host); reflexivity.
  - rewrite !(glfwKeyCallback_unfold M _ p key scancode action mods Hesc).
    rewrite (keySwitch_clipboard_indep host clip key mods _ p Hne).
    reflexivity.
Qed.

Lemma callback_onlyEffects P host p key scancode action mods :
  (key =? KeyEscape) && (action =? Press) = false ->
  onlyEffects P (keySwitch M host key mods (classifyMods p mods) p) ->
  (forall e, P (KeyEventSend e) = true) ->
  (forall f a, P (Printf f a) = true) ->
  forallb P (snd (glfwKeyCallback M host p key scancode action mods)) = true.
Proof.
  intros Hesc Hsw Hk Hp. unfold onlyEffects in Hsw.
  rewrite (glfwKeyCallback_unfold M host p key scancode action mods Hesc).
  assert (Hsend : forall p1,
             forallb P (traceOf (sendKeyEvent key action mods p1)) = true).
  { intros p1. unfold sendKeyEvent, seq, emit, ret.
    destruct (action =? Release), (action =? Press); cbn;
      rewrite ?Hk, ?Hp; reflexivity. }
  destruct ((action =? Repeat) || (action =? Press)).
  - destruct (PrimFloat.eqb (clientID p) 0%float); [reflexivity | ].
    destruct (keySwitch M host key mods (classifyMods p mods) p) as [p1 t1 | p1 t1];
      cbn [traceOf] in Hsw; cbn [snd]; [ | exact Hsw].
    rewrite forallb_app, Hsw. apply Hsend.
  - apply Hsend.
Qed.

Lemma keySwitch_no_clipboard_write host key mods fl p :
  (key <> Copy_key (keyboardLayout p) /\ key <> Cut_key (keyboardLayout p)) \/
  mods <> modifierKey p \/ isSelected M p = false ->
  onlyEffects (fun e => negb (isClipboardWrite e)) (keySwitch M host key mods fl p).
Proof.
  intros Hne. unfold keySwitch, withFlags.
  destruct (GetClipboardString host) as [clpString [err | ]];
    split_keys;
    try (destruct (isSelected M p) eqn:Hsel; cbn [andb]);
    try (exfalso; destruct Hne as [[? ?] | [? | ?]]; congruence);
    repeat first [ apply onlyEffects_skip | apply onlyEffects_ret
                 | apply onlyEffects_edit; reflexivity
                 | apply onlyEffects_emit; reflexivity
                 | apply onlyEffects_seq; [ | intros ? ] ].
Qed.

(** X8. The clipboard is written by the copy and the cut binding only, and only
    with the primary modifier held and a selection present. *)
Theorem clipboard_written_only_by_copy_cut host p key scancode action mods s :
  (key <> Copy_key (keyboardLayout p) /\ key <> Cut_key (keyboardLayout p)) \/
  mods <> modifierKey p \/ isSelected M p = false ->
  ~ In (SetClipboardString s)
       (snd (glfwKeyCallback M host p key scancode action mods)).
Proof.
  intros Hne.
  apply forallb_not_In with (P := fun e => negb (isClipboardWrite e));
    [ | reflexivity].
  destruct ((key =? KeyEscape) && (action =? Press)) eqn:Hesc.
  - unfold glfwKeyCallback, glfwKeyCallback_body, run, seq. rewrite Hesc. cbn.
    destruct (popRoute_err host); reflexivity.
  - apply callback_onlyEffects; try reflexivity; try assumption.
    now apply keySwitch_no_clipboard_write.
Qed.

Lemma editingKeys_neq key :
  ~ In key editingKeys ->
  (key =? KeyEnter) = false /\ (key =? KeyHome) = false /\
  (key =? KeyEnd) = false /\ (key =? KeyLeft) = false /\
  (key =? KeyRight) = false /\ (key =? KeyDelete) = false /\
  (key =? KeyBackspace) = false.
Proof.
  unfold editingKeys. cbn [In]. intros Hnot.
  repeat split; apply Z.eqb_neq; intros ->; tauto.
Qed.

(** X9. The copy binding never changes the plugin state, whatever the action
    and the modifiers are. *)
Theorem copy_keeps_state host p key scancode action mods :
  ~ In key editingKeys ->
  key <> SelectAll_key (keyboardLayout p) ->
  key = Copy_key (keyboardLayout p) ->
  fst (glfwKeyCallback M host p key scancode action mods) = p.
Proof.
  intros Hedit Hsel Hcopy.
  destruct (editingKeys_neq key Hedit) as (H1 & H2 & H3 & H4 & H5 & H6 & H7).
  apply Z.eqb_neq in Hsel.
  destruct ((key =? KeyEscape) && (action =? Press)) eqn:Hesc.
  - unfold glfwKeyCallback, glfwKeyCallback_body, run, seq. rewrite Hesc. cbn.
    destruct (popRoute_err host); reflexivity.
  - rewrite (glfwKeyCallback_unfold M host p key scancode action mods Hesc).
    destruct ((action =? Repeat) || (action =? Press)); [ | reflexivity].
    destruct (PrimFloat.eqb (clientID p) 0%float); [reflexivity | ].
    unfold keySwitch. rewrite H1, H2, H3, H4, H5, H6, H7, Hsel.
    rewrite <- Hcopy, Z.eqb_refl.
    destruct ((mods =? modifierKey p) && isSelected M p); [ | reflexivity].
    destruct (GetSelectedText M p) as [[? ?] ?]. reflexivity.
Qed.

(** X10. A press of a key that is neither Escape nor one of the editing keys,
    with a modifier set other than the primary modifier, edits nothing: with
    a client focused its only effect is the "keydown" event.  In particular
    the four shortcuts need exactly the primary modifier. *)
Theorem plain_key_only_forwards host p key scancode mods :
  PrimFloat.eqb (clientID p) 0%float = false ->
  ~ In key (KeyEscape :: editingKeys) ->
  mods <> modifierKey p ->
  glfwKeyCallback M host p key scancode Press mods =
  (p, [KeyEventSend (keyEvent key "keydown" mods)]).
Proof.
  intros Hfocus Hkey Hmods.
  assert (Hedit : ~ In key editingKeys) by (intros H; apply Hkey; now right).
  assert (Hesc : (key =? KeyEscape) = false)
    by (apply Z.eqb_neq; intros ->; apply Hkey; now left).
  destruct (editingKeys_neq key Hedit) as (H1 & H2 & H3 & H4 & H5 & H6 & H7).
  apply Z.eqb_neq in Hmods.
  rewrite glfwKeyCallback_unfold by (rewrite Hesc; reflexivity).
  rewrite Hfocus. cbn [Z.eqb Press Repeat Pos.eqb orb].
  unfold keySwitch. rewrite H1, H2, H3, H4, H5, H6, H7, Hmods. cbn [andb].
  destruct (key =? SelectAll_key (keyboardLayout p));
    [reflexivity | ].
  destruct (key =? Copy_key (keyboardLayout p)); [reflexivity | ].
  destruct (key =? Cut_key (keyboardLayout p)); [reflexivity | ].
  destruct (key =? Paste_key (keyboardLayout p)); reflexivity.
Qed.

End ShortcutExtras.

(** ** The store, the profile and the meta state *)

Section StoreExtras.

Variable Unmarshal_args : RawMessage -> GoError + list GoIface.
Variable Unmarshal_editingState : RawMessage -> GoError + argsEditingState.

(** X11. Once the client is cleared the store ignores input: [setEditingState]
    is refused, a typed character is dropped and a key press other than of
    Escape does nothing, each leaving the state as [clearClient] left it. *)
Theorem cleared_store_ignores_input M host p a1 a2 key scancode mods char :
  let p0 := fst (handleClearClient p a1) in
  handleSetEditingState Unmarshal_editingState p0 a2 =
    (p0, Returned INil
           (Some "cannot set editing state when no client is selected")) /\
  glfwCharCallback M p0 char = (p0, []) /\
  (key <> KeyEscape ->
   glfwKeyCallback M host p0 key scancode Press mods = (p0, [])).
Proof using Unmarshal_editingState.
  cbv zeta. repeat split.
  intros Hkey. apply Z.eqb_neq in Hkey.
  rewrite glfwKeyCallback_unfold by (rewrite Hkey; reflexivity).
  reflexivity.
Qed.

(** X12. [setClient] with the number 0 (or -0) leaves the store without a
    focused client: the next [setEditingState] is refused. *)
Theorem setClient_zero_leaves_unfocused p a1 a2 id rest :
  Unmarshal_args a1 = inr (IFloat64 id :: rest) ->
  PrimFloat.eqb id 0%float = true ->
  let p1 := fst (handleSetClient Unmarshal_args p a1) in
  snd (handleSetClient Unmarshal_args p a1) = Returned INil None /\
  handleSetEditingState Unmarshal_editingState p1 a2 =
    (p1, Returned INil
           (Some "cannot set editing state when no client is selected")).
Proof using Unmarshal_args Unmarshal_editingState.
  intros Hdec Hzero. cbv zeta. unfold handleSetClient. rewrite Hdec.
  split; [reflexivity | ].
  unfold handleSetEditingState. cbn [fst set_clientID clientID].
  rewrite Hzero. reflexivity.
Qed.

(** X13. The last [setEditingState] wins: when the second payload decodes, two
    calls in a row leave the state that the second call alone leaves. *)
Theorem setEditingState_last_write_wins p a1 a2 st2 :
  Unmarshal_editingState a2 = inr st2 ->
  fst (handleSetEditingState Unmarshal_editingState
         (fst (handleSetEditingState Unmarshal_editingState p a1)) a2) =
  fst (handleSetEditingState Unmarshal_editingState p a2).
Proof using Unmarshal_editingState.
  intros Hdec. unfold handleSetEditingState.
  destruct (PrimFloat.eqb (clientID p) 0%float) eqn:Hc.
  - cbn [fst]. rewrite Hc. reflexivity.
  - rewrite Hdec.
    destruct (Unmarshal_editingState a1) as [err | st1]; cbn [fst].
    + rewrite Hc. reflexivity.
    + cbn [set_editing clientID]. rewrite Hc. reflexivity.
Qed.

(** X14. A handler that does not return [(nil, nil)] has changed nothing: a
    decode error, a missing or non-numeric client argument and a missing
    client leave the whole state as it was. *)
Theorem handlers_fail_atomically p arguments :
  (snd (handleSetClient Unmarshal_args p arguments) <> Returned INil None ->
   fst (handleSetClient Unmarshal_args p arguments) = p) /\
  (snd (handleSetEditingState Unmarshal_editingState p arguments)
     <> Returned INil None ->
   fst (handleSetEditingState Unmarshal_editingState p arguments) = p).
Proof using Unmarshal_args Unmarshal_editingState.
  split.
  - unfold handleSetClient.
    destruct (Unmarshal_args arguments) as [err | [ | [ | | | | | ] rest]];
      cbn; intros H; try reflexivity; now elim H.
  - unfold handleSetEditingState.
    destruct (PrimFloat.eqb (clientID p) 0%float); [reflexivity | ].
    destruct (Unmarshal_editingState arguments) as [err | st];
      cbn; intros H; [reflexivity | now elim H].
Qed.

(** X15. A payload that does not decode is reported with the handler's name in
    front of the decoder's message. *)
Theorem decode_errors_are_wrapped p arguments err :
  (Unmarshal_args arguments = inl err ->
   snd (handleSetClient Unmarshal_args p arguments) =
   Returned INil
     (Some ("failed to decode json arguments for handleSetClient: " ++ err)%string)) /\
  (Unmarshal_editingState arguments = inl err ->
   PrimFloat.eqb (clientID p) 0%float = false ->
   snd (handleSetEditingState Unmarshal_editingState p arguments) =
   Returned INil
     (Some ("failed to decode json arguments for handleSetEditingState: "
              ++ err)%string)).
Proof using Unmarshal_args Unmarshal_editingState.
  split.
  - intros Hdec. unfold handleSetClient. rewrite Hdec. reflexivity.
  - intros Hdec Hfocus. unfold handleSetEditingState. rewrite Hfocus, Hdec.
    reflexivity.
Qed.

(** X16. The three handlers never touch the key profile and the shortcut
    table. *)
Theorem handlers_keep_profile p arguments :
  profileOf (fst (handleSetClient Unmarshal_args p arguments)) = profileOf p /\
  profileOf (fst (handleClearClient p arguments)) = profileOf p /\
  profileOf (fst (handleSetEditingState Unmarshal_editingState p arguments)) =
    profileOf p.
Proof using Unmarshal_args Unmarshal_editingState.
  repeat split.
  - unfold handleSetClient.
    destruct (Unmarshal_args arguments) as [err | [ | [ | | | | | ] rest]];
      reflexivity.
  - unfold handleSetEditingState.
    destruct (PrimFloat.eqb (clientID p) 0%float); [reflexivity | ].
    destruct (Unmarshal_editingState arguments); reflexivity.
Qed.

End StoreExtras.

(** X17. [InitPlugin] never fails, keeps the shortcut table, the client and the
    editing state, and is idempotent.  In the profile it sets, the
    word-travel-extend set is the word-travel set plus shift, and shift
    alone is none of the three profile sets. *)
Theorem InitPlugin_profile_shape goos p :
  let p' := fst (InitPlugin goos p) in
  snd (InitPlugin goos p) = None /\
  keyboardLayout p' = keyboardLayout p /\
  editingOf p' = editingOf p /\
  InitPlugin goos p' = InitPlugin goos p /\
  wordTravellerKeyShift p' = Z.lor (wordTravellerKey p') ModShift /\
  wordTravellerKeyShift p' <> wordTravellerKey p' /\
  wordTravellerKeyShift p' <> modifierKey p' /\
  modifierKey p' <> ModShift /\
  wordTravellerKey p' <> ModShift /\
  wordTravellerKeyShift p' <> ModShift.
Proof.
  cbv zeta. unfold InitPlugin.
  destruct (String.eqb goos "darwin"); cbn; repeat split; discriminate.
Qed.

(** X18. Under the default profile (any OS but darwin) no modifier set is ever
    flagged as the primary modifier: Control is taken by the word-travel
    case first. *)
Theorem default_profile_never_flags_primary goos p0 mods :
  String.eqb goos "darwin" = false ->
  modsIsModfifier (classifyMods (fst (InitPlugin goos p0)) mods) = false.
Proof.
  intros Hos. unfold InitPlugin. rewrite Hos. unfold classifyMods. cbn.
  repeat match goal with
         | |- context [if ?b then _ else _] => destruct b
         end; reflexivity.
Qed.

Lemma modHeld_low_bits mods m :
  Z.land 15 m = m -> modHeld (Z.land mods 15) m = modHeld mods m.
Proof.
  intros Hm. unfold modHeld. now rewrite <- Z.land_assoc, Hm.
Qed.

(** X19. The meta state depends on the four low bits of the modifier set only
    and lies between 0 and 69635 (all four bits set). *)
Theorem metaState_low_bits mods :
  metaState mods = metaState (Z.land mods 15) /\
  0 <= metaState mods <= 69635.
Proof.
  unfold metaState.
  rewrite !modHeld_low_bits by reflexivity. split; [reflexivity | ].
  destruct (modHeld mods ModShift), (modHeld mods ModAlt),
    (modHeld mods ModControl), (modHeld mods ModSuper); cbn; lia.
Qed.

(** ** The character callback *)

(** X20. A typed character reaches [addChar] only: the callback makes calls on
    the text channel and nothing else, and with no client focused it does
    nothing at all. *)
Theorem glfwCharCallback_only_inserts M p char :
  forallb isTextInvoke (snd (glfwCharCallback M p char)) = true /\
  (PrimFloat.eqb (clientID p) 0%float = true ->
   glfwCharCallback M p char = (p, [])) /\
  (PrimFloat.eqb (clientID p) 0%float = false ->
   fst (glfwCharCallback M p char) = fst (addChar M [char] p)).
Proof.
  unfold glfwCharCallback.
  destruct (PrimFloat.eqb (clientID p) 0%float).
  - repeat split. discriminate.
  - destruct (addChar M [char] p) as [p' t]. cbn [fst snd].
    repeat split; try discriminate.
    induction t as [ | c t IH]; [reflexivity | exact IH].
Qed.

(** ** The codec *)

(** X21. [EncodeMessage] maps the nil interface, the nil byte slice and the nil
    slice to the same bytes [null]; so no decoder, whatever it does, can
    give back every message from its encoding. *)
Theorem EncodeMessage_not_injective
  (decode : option (list byte) -> GoValue) :
  EncodeMessage VNil = EncodeMessage VBytesNil /\
  EncodeMessage VNil = EncodeMessage VSliceNil /\
  ~ (forall v, decode (fst (EncodeMessage v)) = v).
Proof.
  repeat split. intros Hall.
  pose proof (Hall VNil) as H1. pose proof (Hall VBytesNil) as H2.
  cbn in H1, H2. congruence.
Qed.

(** X22. The text that [DecodeMessage] returns for [n] bytes has
    [4 * ((n + 2) / 3) + 4] bytes: brackets, quotes and the padded base64
    digits of the input. *)
Theorem DecodeMessage_length b :
  exists out,
    DecodeMessage (Some b) = (VBytes out, None) /\
    List.length out = (4 * ((List.length b + 2) / 3) + 4)%nat.
Proof.
  unfold DecodeMessage. cbn [bytesValue]. eexists. split; [reflexivity | ].
  rewrite json_Marshal_singleton_length, json_Marshal_bytes_length.
  assert (H : List.length (base64_Encode b) = (4 * ((List.length b + 2) / 3))%nat).
  { induction b as [ | x | x y | x y z rest IH] using list_ind3;
      cbn [base64_Encode List.length]; try reflexivity.
    rewrite IH.
    replace (S (S (S (List.length rest))) + 2)%nat
      with (List.length rest + 2 + 1 * 3)%nat by lia.
    rewrite Nat.div_add by lia. lia. }
  rewrite H. lia.
Qed.

(** ** The further properties at concrete calls *)

Lemma repeat_edits_like_press_witness :
  fst (glfwKeyCallback idleModel quietHost focusedPlugin KeyEnter 36 Repeat 0) =
  fst (glfwKeyCallback idleModel quietHost focusedPlugin KeyEnter 36 Press 0).
Proof.
  apply (proj2 (repeat_edits_like_press idleModel quietHost focusedPlugin
                  KeyEnter 36 0)).
  unfold KeyEnter, KeyEscape. lia.
Defined.

Lemma unknown_action_only_logs_witness :
  glfwKeyCallback idleModel quietHost focusedPlugin KeyEscape 9 3 0 =
  (focusedPlugin,
   [Printf ("go-flutter: failed to send key event, action: %v" ++ nl)
           (ArgAction 3)]).
Proof.
  apply (unknown_action_only_logs idleModel quietHost focusedPlugin KeyEscape 9 3 0);
    unfold Release, Press, Repeat; lia.
Defined.

Lemma unfocused_press_or_repeat_is_inert_witness :
  glfwKeyCallback idleModel quietHost linuxPlugin KeyBackspace 22 Repeat 0 =
  (linuxPlugin, []).
Proof.
  apply (unfocused_press_or_repeat_is_inert idleModel quietHost linuxPlugin
           KeyBackspace 22 Repeat 0).
  - reflexivity.
  - right. reflexivity.
  - intros _. reflexivity.
Defined.

Lemma popRoute_only_on_escape_press_witness :
  ~ In (NavigationInvoke popRoute)
       (snd (glfwKeyCallback idleModel quietHost focusedPlugin KeyEscape 9 Repeat 0)).
Proof.
  apply (popRoute_only_on_escape_press idleModel quietHost focusedPlugin
           KeyEscape 9 Repeat 0 popRoute).
  right. unfold Repeat, Press. lia.
Defined.

Lemma clipboard_read_only_by_paste_witness :
  glfwKeyCallback idleModel
    (withClipboard quietHost ("", Some "clipboard unavailable"))
    focusedPlugin 86 55 Press (Z.lor ModControl ModShift) =
  glfwKeyCallback idleModel quietHost focusedPlugin 86 55 Press
    (Z.lor ModControl ModShift).
Proof.
  apply (clipboard_read_only_by_paste idleModel quietHost
           ("", Some "clipboard unavailable") focusedPlugin 86 55 Press
           (Z.lor ModControl ModShift)).
  right. vm_compute. discriminate.
Defined.

Lemma clipboard_written_only_by_copy_cut_witness :
  ~ In (SetClipboardString "")
       (snd (glfwKeyCallback idleModel quietHost focusedPlugin 67 54 Press
               ModControl)).
Proof.
  apply (clipboard_written_only_by_copy_cut idleModel quietHost focusedPlugin
           67 54 Press ModControl "").
  right; right. reflexivity.
Defined.

Lemma copy_keeps_state_witness :
  fst (glfwKeyCallback idleModel quietHost focusedPlugin 67 54 Press ModControl) =
  focusedPlugin.
Proof.
  apply (copy_keeps_state idleModel quietHost focusedPlugin 67 54 Press ModControl).
  - vm_compute. intuition discriminate.
  - vm_compute. discriminate.
  - reflexivity.
Defined.

Lemma plain_key_only_forwards_witness :
  glfwKeyCallback idleModel quietHost focusedPlugin 86 55 Press
    (Z.lor ModControl ModShift) =
  (focusedPlugin,
   [KeyEventSend (keyEvent 86 "keydown" (Z.lor ModControl ModShift))]).
Proof.
  apply (plain_key_only_forwards idleModel quietHost focusedPlugin 86 55
           (Z.lor ModControl ModShift)).
  - reflexivity.
  - vm_compute. intuition discriminate.
  - vm_compute. discriminate.
Defined.

Lemma cleared_store_ignores_input_witness :
  glfwKeyCallback idleModel quietHost (fst (handleClearClient focusedPlugin []))
    KeyEnter 36 Press 0 =
  (fst (handleClearClient focusedPlugin []), []).
Proof.
  apply (proj2 (proj2 (cleared_store_ignores_input decode_editingState idleModel
                         quietHost focusedPlugin [] [] KeyEnter 36 0 97))).
  unfold KeyEnter, KeyEscape. lia.
Defined.

Lemma setClient_zero_leaves_unfocused_witness :
  snd (handleSetClient decode_args_zero focusedPlugin setClient_0) =
    Returned INil None /\
  handleSetEditingState decode_editingState
    (fst (handleSetClient decode_args_zero focusedPlugin setClient_0))
    setEditingState_abc_0_3 =
  (fst (handleSetClient decode_args_zero focusedPlugin setClient_0),
   Returned INil (Some "cannot set editing state when no client is selected")).
Proof.
  apply (setClient_zero_leaves_unfocused decode_args_zero decode_editingState
           focusedPlugin setClient_0 setEditingState_abc_0_3 0%float [IMap []]);
    reflexivity.
Defined.

Lemma setEditingState_last_write_wins_witness :
  fst (handleSetEditingState decode_editingState
         (fst (handleSetEditingState decode_editingState focusedPlugin
                 setEditingState_x_0_5))
         setEditingState_abc_0_3) =
  fst (handleSetEditingState decode_editingState focusedPlugin
         setEditingState_abc_0_3).
Proof.
  apply (setEditingState_last_write_wins decode_editingState focusedPlugin
           setEditingState_x_0_5 setEditingState_abc_0_3
           {| Text := "abc"; SelectionBase := 0; SelectionExtent := 3 |}).
  reflexivity.
Defined.

Lemma handlers_fail_atomically_witness :
  fst (handleSetClient decode_args focusedPlugin []) = focusedPlugin /\
  fst (handleSetEditingState decode_editingState focusedPlugin []) = focusedPlugin.
Proof.
  split.
  - apply (proj1 (handlers_fail_atomically decode_args decode_editingState
                    focusedPlugin [])).
    vm_compute. discriminate.
  - apply (proj2 (handlers_fail_atomically decode_args decode_editingState
                    focusedPlugin [])).
    vm_compute. discriminate.
Defined.

Lemma decode_errors_are_wrapped_witness :
  snd (handleSetClient decode_args focusedPlugin []) =
    Returned INil
      (Some "failed to decode json arguments for handleSetClient: unexpected end of JSON input") /\
  snd (handleSetEditingState decode_editingState focusedPlugin []) =
    Returned INil
      (Some "failed to decode json arguments for handleSetEditingState: unexpected end of JSON input").
Proof.
  split.
  - apply (proj1 (decode_errors_are_wrapped decode_args decode_editingState
                    focusedPlugin [] "unexpected end of JSON input")).
    reflexivity.
  - apply (proj2 (decode_errors_are_wrapped decode_args decode_editingState
                    focusedPlugin [] "unexpected end of JSON input"));
      reflexivity.
Defined.

Lemma default_profile_never_flags_primary_witness :
  modsIsModfifier (classifyMods (fst (InitPlugin "windows" defaultTextinputPlugin))
                     ModControl) = false.
Proof.
  apply (default_profile_never_flags_primary "windows" defaultTextinputPlugin
           ModControl).
  reflexivity.
Defined.

Lemma glfwCharCallback_only_inserts_witness :
  glfwCharCallback idleModel linuxPlugin 97 = (linuxPlugin, []) /\
  fst (glfwCharCallback idleModel focusedPlugin 97) =
  fst (addChar idleModel [97] focusedPlugin).
Proof.
  split.
  - apply (proj1 (proj2 (glfwCharCallback_only_inserts idleModel linuxPlugin 97))).
    reflexivity.
  - apply (proj2 (proj2 (glfwCharCallback_only_inserts idleModel focusedPlugin 97))).
    reflexivity.
Defined.
